(** * A shallow embedding of [tb_dash.py]: the feature-selection-to-map pipeline.

    The pandas data frame [df] is modelled as a table of rows keyed by
    country and year; each numeric feature cell is [option Q], where [None]
    is a missing value (NaN).  Python exceptions are the [Error] branch of
    [result]; the module-level global [df] is the state read by the Dash
    callback. *)

From Stdlib Require Import ZArith QArith Qround String List Bool Lia.
Import ListNotations.
Open Scope string_scope.

(** ** Data model *)

Record row := mkRow {
  country : string;
  iso3 : string;
  year : Z;
  cells : list (string * option Q)
}.

(** [columns] lists the numeric feature columns of the frame. *)
Record table := mkTable {
  columns : list string;
  rows : list row
}.

(** [row[c]]: the cell of column [c]; a column a row does not mention is NaN. *)
Definition cell (r : row) (c : string) : option Q :=
  match find (fun p => String.eqb (fst p) c) (cells r) with
  | Some (_, v) => v
  | None => None
  end.

Definition notna (v : option Q) : bool :=
  match v with Some _ => true | None => false end.

(** Python exceptions raised along the pipeline. *)
Inductive exn := KeyError (key : string).

Inductive result (A : Type) :=
  | Ok (a : A)
  | Error (e : exn).
Arguments Ok {A} a.
Arguments Error {A} e.

(** A float as pandas returns it: a number or NaN. *)
Inductive pyfloat := Num (q : Q) | NaN.

(** ** Feature catalog ([feature_labels], a dict in insertion order) *)

Definition feature_labels : list (string * string) := [
  ("c_newinc", "New Cases Reported");
  ("c_per_100k", "Cases per 100k Population");
  ("new_ep", "New Extrapulmonary Cases");
  ("ret_rel", "Relapse Cases");
  ("newrel_hivpos", "New HIV+ TB Cases");
  ("c_new_female", "New Female Cases");
  ("c_new_male", "New Male Cases");
  ("c_new_un", "New Cases Unknown Sex");
  ("c_new_female_0_24", "New Female Cases (0–24)");
  ("c_new_female_25_44", "New Female Cases (25–44)");
  ("c_new_female_45_64", "New Female Cases (45–64)");
  ("c_new_female_65", "New Female Cases (65+)");
  ("c_new_male_0_24", "New Male Cases (0–24)");
  ("c_new_male_25_44", "New Male Cases (25–44)");
  ("c_new_male_45_64", "New Male Cases (45–64)");
  ("c_new_male_65", "New Male Cases (65+)");
  ("c_new_unknown_0_24", "New Cases Unknown Sex (0–24)")
].

(** [d[k]] on a dict given as an association list. *)
Definition dict_get (d : list (string * string)) (k : string) : result string :=
  match find (fun p => String.eqb (fst p) k) d with
  | Some (_, v) => Ok v
  | None => Error (KeyError k)
  end.

Definition in_catalog (k : string) : bool :=
  existsb (fun p => String.eqb (fst p) k) feature_labels.

(** ** Sorting, used by [groupby] (sorted keys) and by [Series.quantile] *)

Fixpoint insert_Z (x : Z) (l : list Z) : list Z :=
  match l with
  | [] => [x]
  | y :: t => if Z.leb x y then x :: l else y :: insert_Z x t
  end.

Definition sort_Z (l : list Z) : list Z := fold_right insert_Z [] l.

Fixpoint insert_Q (x : Q) (l : list Q) : list Q :=
  match l with
  | [] => [x]
  | y :: t => if Qle_bool x y then x :: l else y :: insert_Q x t
  end.

Definition sort_Q (l : list Q) : list Q := fold_right insert_Q [] l.

(** [Series.dropna()] on a numeric column. *)
Fixpoint dropna (s : list (option Q)) : list Q :=
  match s with
  | [] => []
  | Some v :: t => v :: dropna t
  | None :: t => dropna t
  end.

(** [Series.quantile(q)] with pandas' default [interpolation="linear"]:
    on the sorted values [x], position [h = (n-1)*q], result
    [x[floor h] + (h - floor h) * (x[ceil h] - x[floor h])]; NaN when the
    series is empty. *)
Definition quantile (xs : list Q) (q : Q) : pyfloat :=
  match sort_Q xs with
  | [] => NaN
  | s =>
      let h := inject_Z (Z.of_nat (length s) - 1) * q in
      let lo := Qfloor h in
      let hi := Qceiling h in
      let xlo := nth (Z.to_nat lo) s 0 in
      let xhi := nth (Z.to_nat hi) s 0 in
      Num (xlo + (h - inject_Z lo) * (xhi - xlo))
  end.

(** ** The figure objects produced by plotly express *)

Record choropleth := mkChoropleth {
  fig_data : list row;
  fig_locations : string;
  fig_color : string;
  fig_hover_name : string;
  fig_animation_frame : string;
  fig_color_scale : string;
  fig_projection : string;
  fig_title : string;
  fig_range_color : option (pyfloat * pyfloat);
  fig_width : Z;
  fig_height : Z;
  fig_slider_x : Q;
  fig_slider_len : Q;
  fig_colorbar_title : string;
  fig_colorbar_len : Q;
  fig_colorbar_thickness : Z;
  fig_colorbar_x : Q
}.

(** [px.scatter(title=...)] with no data: a title and no map geometry. *)
Inductive figure :=
  | Scatter (title : string)
  | Choropleth (c : choropleth).

(** [plot_world_map]: [px.choropleth] followed by [fig.update_layout];
    [range_color] is set only when both bounds are not [None]. *)
Definition plot_world_map (df : list row) (locations color hover_name animation_frame : string)
    (title colorbar_title color_scale projection_type : string)
    (slider_x slider_len colorbar_len : Q) (colorbar_thickness : Z) (colorbar_x : Q)
    (width height : Z) (vmin vmax : option pyfloat) : choropleth :=
  {| fig_data := df;
     fig_locations := locations;
     fig_color := color;
     fig_hover_name := hover_name;
     fig_animation_frame := animation_frame;
     fig_color_scale := color_scale;
     fig_projection := projection_type;
     fig_title := title;
     fig_range_color :=
       match vmin, vmax with
       | Some a, Some b => Some (a, b)
       | _, _ => None
       end;
     fig_width := width;
     fig_height := height;
     fig_slider_x := slider_x;
     fig_slider_len := slider_len;
     fig_colorbar_title := colorbar_title;
     fig_colorbar_len := colorbar_len;
     fig_colorbar_thickness := colorbar_thickness;
     fig_colorbar_x := colorbar_x |}.

(** ** The selection-to-view pipeline ([update_world_map]) *)

(** [df.groupby("year")[selected_feature]] for a numeric feature column:
    raises [KeyError] when the frame has no such column; otherwise the
    (year, value) pairs grouped by the sorted distinct years.  The frame's
    identifier columns ([id_columns]) are the fields [country], [iso3] and
    [year] of a row, not entries of [columns]: selecting one of them is
    outside this model. *)
Definition id_columns : list string := ["country"; "iso3"; "year"].

Definition select_column (t : table) (c : string) : result (list (Z * option Q)) :=
  if existsb (String.eqb c) (columns t)
  then Ok (map (fun r => (year r, cell r c)) (rows t))
  else Error (KeyError c).

Definition group_keys (rs : list row) : list Z :=
  sort_Z (nodup Z.eq_dec (map year rs)).

(** [.apply(lambda x: x.notna().any())]: a boolean series indexed by year. *)
Definition valid_years (t : table) (c : string) : result (list (Z * bool)) :=
  match select_column t c with
  | Error e => Error e
  | Ok col =>
      Ok (map (fun y => (y, existsb (fun p => Z.eqb (fst p) y && notna (snd p)) col))
              (group_keys (rows t)))
  end.

(** [df[df["year"].isin(valid_years[valid_years].index)]] *)
Definition filter_years (rs : list row) (vy : list (Z * bool)) : list row :=
  let idx := map fst (filter snd vy) in
  filter (fun r => existsb (Z.eqb (year r)) idx) rs.

Definition filtered_view (t : table) (c : string) : result (list row) :=
  match valid_years t c with
  | Error e => Error e
  | Ok vy => Ok (filter_years (rows t) vy)
  end.

Definition no_data_title : string := "No data available for selected feature.".

Definition update_world_map (df : table) (selected_feature : string) : result figure :=
  match filtered_view df selected_feature with
  | Error e => Error e
  | Ok [] => Ok (Scatter no_data_title)
  | Ok filtered_df =>
      let vmin := Num 0 in
      let vmax := quantile (dropna (map (fun r => cell r selected_feature) filtered_df)) (99 # 100) in
      match dict_get feature_labels selected_feature with
      | Error e => Error e
      | Ok readable_title =>
          Ok (Choropleth
                (plot_world_map filtered_df "iso3" selected_feature "country" "year"
                   ("Global TB Map for " ++ readable_title) readable_title
                   "Viridis" "natural earth" (2 # 10) (6 # 10) (5 # 10) 10 (9 # 10)
                   1200 700 (Some vmin) (Some vmax)))
      end
  end.

(** ** The process: module-level state and the Dash callback *)

Record app_state := mkAppState { df : table }.

(** A state monad over the process globals. *)
Definition St (A : Type) := app_state -> A * app_state.
Definition ret {A} (a : A) : St A := fun s => (a, s).
Definition bind {A B} (m : St A) (k : A -> St B) : St B :=
  fun s => let (a, s') := m s in k a s'.
Notation "x <- m ;; k" := (bind m (fun x => k)) (at level 61, m at next level, right associativity).
Definition get_df : St table := fun s => (df s, s).

(** Module top level: [df = pd.read_csv(...)], the catalog and the app are
    built; nothing compares the catalog with the loaded columns. *)
Definition startup (loaded : table) : result app_state := Ok (mkAppState loaded).

(** The registered callback reads the global [df]. *)
Definition update_world_map_cb (selected_feature : string) : St (result figure) :=
  t <- get_df ;; ret (update_world_map t selected_feature).

(** [app.layout]'s dropdown: options [{"label": label, "value": col}] for
    each catalog entry in order, initial value ["c_newinc"]. *)
Record dropdown := mkDropdown {
  dd_id : string;
  dd_options : list (string * string);  (* (label, value) *)
  dd_value : string
}.

Definition feature_dropdown : dropdown :=
  mkDropdown "feature-dropdown"
    (map (fun p => (snd p, fst p)) feature_labels)
    "c_newinc".

(** ** Concrete runs *)

Definition afg (y : Z) (v : option Q) : row :=
  mkRow "Afghanistan" "AFG" y [("c_newinc", v)].

(** The scenario of the spec: 120 cases in 2010, a missing value in 2011. *)
Definition scenario_table : table :=
  mkTable ["c_newinc"] [afg 2010 (Some 120); afg 2011 None].

Example scenario_filtered :
  filtered_view scenario_table "c_newinc" = Ok [afg 2010 (Some 120)].
Proof. reflexivity. Qed.

Example scenario_render :
  match update_world_map scenario_table "c_newinc" with
  | Ok (Choropleth c) =>
      fig_title c = "Global TB Map for New Cases Reported" /\
      match fig_range_color c with
      | Some (Num a, Num b) => a == 0 /\ b == 120
      | _ => False
      end
  | _ => False
  end.
Proof. vm_compute. repeat split; reflexivity. Qed.

(** A feature present in 2010 and 2012, absent in 2011 although another
    feature has a value there. *)
Definition gap_table : table :=
  mkTable ["c_newinc"; "new_ep"]
    [mkRow "A" "AAA" 2010 [("c_newinc", Some 5); ("new_ep", None)];
     mkRow "A" "AAA" 2011 [("c_newinc", None); ("new_ep", Some 3)];
     mkRow "B" "BBB" 2012 [("c_newinc", None); ("new_ep", None)];
     mkRow "A" "AAA" 2012 [("c_newinc", Some 7); ("new_ep", None)]].

Example gap_filtered :
  match filtered_view gap_table "c_newinc" with
  | Ok fv => map year fv = [2010; 2012; 2012]%Z
  | Error _ => False
  end.
Proof. reflexivity. Qed.

(** ** Lemmas about the helpers *)

Lemma In_insert_Z : forall x y l, In y (insert_Z x l) <-> x = y \/ In y l.
Proof.
  intros x y l; induction l as [|z l IH]; simpl.
  - tauto.
  - destruct (Z.leb x z); simpl; [tauto|]. rewrite IH. tauto.
Qed.

Lemma In_sort_Z : forall y l, In y (sort_Z l) <-> In y l.
Proof.
  intros y l; induction l as [|x l IH]; simpl; [tauto|].
  rewrite In_insert_Z, IH. intuition.
Qed.

Lemma In_group_keys : forall y rs, In y (group_keys rs) <-> In y (map year rs).
Proof.
  intros y rs. unfold group_keys. rewrite In_sort_Z, nodup_In. reflexivity.
Qed.

Lemma existsb_valid_index : forall (P : Z -> bool) keys y,
  existsb (Z.eqb y) (map fst (filter snd (map (fun k => (k, P k)) keys))) = true
  <-> In y keys /\ P y = true.
Proof.
  intros P keys y; induction keys as [|k keys IH]; simpl.
  - split; [discriminate | tauto].
  - destruct (P k) eqn:Hk; simpl.
    + rewrite orb_true_iff, IH, Z.eqb_eq. split.
      * intros [-> | [H1 H2]]; auto.
      * intros [[-> | H1] H2]; auto.
    + rewrite IH. split.
      * intros [H1 H2]; auto.
      * intros [[-> | H1] H2]; [congruence | auto].
Qed.

(** A row's year passes the filter exactly when some row of that year has a
    value for the feature. *)
Definition year_has_value (rs : list row) (c : string) (y : Z) : bool :=
  existsb (fun r' => Z.eqb (year r') y && notna (cell r' c)) rs.

Lemma existsb_column : forall rs c y,
  existsb (fun p => Z.eqb (fst p) y && notna (snd p)) (map (fun r => (year r, cell r c)) rs)
  = year_has_value rs c y.
Proof.
  intros rs c y; induction rs as [|r rs IH]; simpl; [reflexivity|]. now rewrite IH.
Qed.

Lemma filtered_view_eq : forall t c,
  In c (columns t) ->
  filtered_view t c = Ok (filter (fun r => year_has_value (rows t) c (year r)) (rows t)).
Proof.
  intros t c Hc. unfold filtered_view, valid_years, select_column.
  replace (existsb (String.eqb c) (columns t)) with true
    by (symmetry; apply existsb_exists; exists c; split; [exact Hc | apply String.eqb_refl]).
  f_equal. unfold filter_years. apply filter_ext_in. intros r Hr.
  apply eq_true_iff_eq. rewrite (existsb_valid_index (fun y => _)), existsb_column.
  rewrite In_group_keys. split; [tauto|]. intros H; split; [apply in_map; exact Hr | exact H].
Qed.

Lemma year_has_value_iff : forall rs c y,
  year_has_value rs c y = true <-> exists r', In r' rs /\ year r' = y /\ cell r' c <> None.
Proof.
  intros rs c y. unfold year_has_value. rewrite existsb_exists. split.
  - intros [r' [Hin Hb]]. apply andb_true_iff in Hb as [Hy Hn].
    apply Z.eqb_eq in Hy. exists r'. repeat split; auto.
    destruct (cell r' c); discriminate.
  - intros [r' [Hin [Hy Hn]]]. exists r'. split; [exact Hin|].
    rewrite Hy, Z.eqb_refl. destruct (cell r' c); [reflexivity | congruence].
Qed.

Lemma filter_nil_iff_missing : forall t c,
  filter (fun r => year_has_value (rows t) c (year r)) (rows t) = []
  <-> forall r, In r (rows t) -> cell r c = None.
Proof.
  intros t c. split.
  - intros H r Hr. destruct (cell r c) eqn:E; [exfalso | reflexivity].
    assert (Hin : In r (filter (fun r => year_has_value (rows t) c (year r)) (rows t))).
    { apply filter_In. split; [exact Hr|]. apply year_has_value_iff.
      exists r. rewrite E. repeat split; [exact Hr | discriminate]. }
    rewrite H in Hin. destruct Hin.
  - intros H. destruct (filter _ (rows t)) as [|r0 l] eqn:E; [reflexivity | exfalso].
    assert (Hin : In r0 (filter (fun r => year_has_value (rows t) c (year r)) (rows t)))
      by (rewrite E; left; reflexivity).
    apply filter_In in Hin as [_ Hy]. apply year_has_value_iff in Hy as [r' [Hr' [_ Hn]]].
    exact (Hn (H r' Hr')).
Qed.

Lemma dropna_filter : forall (p : row -> bool) (f : row -> option Q) l,
  (forall r, In r l -> p r = false -> f r = None) ->
  dropna (map f (filter p l)) = dropna (map f l).
Proof.
  intros p f l; induction l as [|r l IH]; intros H; simpl; [reflexivity|].
  destruct (p r) eqn:E; simpl.
  - destruct (f r); rewrite IH by (intros; apply H; simpl; auto); reflexivity.
  - rewrite (H r (or_introl eq_refl) E). apply IH. intros; apply H; simpl; auto.
Qed.

(** The values of the feature in the filtered view are all the values of the
    feature in the table. *)
Lemma dropna_filtered_view : forall t c,
  dropna (map (fun r => cell r c) (filter (fun r => year_has_value (rows t) c (year r)) (rows t)))
  = dropna (map (fun r => cell r c) (rows t)).
Proof.
  intros t c. apply dropna_filter. intros r Hr Hp.
  destruct (cell r c) eqn:E; [exfalso | reflexivity].
  assert (year_has_value (rows t) c (year r) = true) by
    (apply year_has_value_iff; exists r; rewrite E; repeat split; [exact Hr | discriminate]).
  congruence.
Qed.

Lemma dropna_nonempty : forall (f : row -> option Q) l,
  dropna (map f l) = [] <-> forall r, In r l -> f r = None.
Proof.
  intros f l; induction l as [|r l IH]; simpl.
  - split; [tauto | reflexivity].
  - destruct (f r) eqn:E; simpl.
    + split; [discriminate | intros H; rewrite (H r (or_introl eq_refl)) in E; discriminate].
    + rewrite IH. split; [intros H r' [<- | Hr']; auto | intros H r' Hr'; auto].
Qed.

Lemma insert_Q_not_nil : forall x l, insert_Q x l <> [].
Proof. intros x [|y l]; simpl; [discriminate|]. destruct (Qle_bool x y); discriminate. Qed.

Lemma quantile_num : forall xs q, xs <> [] -> exists v, quantile xs q = Num v.
Proof.
  intros [|x xs] q H; [congruence|]. unfold quantile, sort_Q. simpl.
  destruct (insert_Q x (fold_right insert_Q [] xs)) eqn:E.
  - exfalso. exact (insert_Q_not_nil _ _ E).
  - eexists; reflexivity.
Qed.

Lemma dict_get_catalog : forall k, in_catalog k = true ->
  exists l, dict_get feature_labels k = Ok l.
Proof.
  intros k H. unfold dict_get. unfold in_catalog in H.
  destruct (find (fun p => String.eqb (fst p) k) feature_labels) as [[k' l]|] eqn:E.
  - exists l; reflexivity.
  - apply existsb_exists in H as [p [Hp Hb]].
    rewrite (find_none _ _ E p Hp) in Hb. discriminate.
Qed.

Lemma dict_get_not_catalog : forall k, in_catalog k = false ->
  dict_get feature_labels k = Error (KeyError k).
Proof.
  intros k H. unfold dict_get. unfold in_catalog in H.
  destruct (find (fun p => String.eqb (fst p) k) feature_labels) as [[k' l]|] eqn:E;
    [exfalso | reflexivity].
  apply find_some in E as [Hin Hb].
  assert (existsb (fun p => String.eqb (fst p) k) feature_labels = true)
    by (apply existsb_exists; exists (k', l); auto).
  congruence.
Qed.

(** [update_world_map] on a feature column, case by case. *)
Lemma update_world_map_column : forall t c,
  In c (columns t) ->
  let fv := filter (fun r => year_has_value (rows t) c (year r)) (rows t) in
  update_world_map t c =
    match fv with
    | [] => Ok (Scatter no_data_title)
    | _ =>
      match dict_get feature_labels c with
      | Error e => Error e
      | Ok readable_title =>
          Ok (Choropleth
                (plot_world_map fv "iso3" c "country" "year"
                   ("Global TB Map for " ++ readable_title) readable_title
                   "Viridis" "natural earth" (2 # 10) (6 # 10) (5 # 10) 10 (9 # 10)
                   1200 700 (Some (Num 0))
                   (Some (quantile (dropna (map (fun r => cell r c) fv)) (99 # 100)))))
      end
    end.
Proof.
  intros t c Hc fv. unfold update_world_map. rewrite filtered_view_eq by exact Hc.
  fold fv. destruct fv; reflexivity.
Qed.

Lemma missing_or_present : forall (l : list row) c,
  (forall r, In r l -> cell r c = None) \/ exists r, In r l /\ cell r c <> None.
Proof.
  intros l c; induction l as [|r l [IH | [r' [Hr' Hn]]]].
  - left; intros r [].
  - destruct (cell r c) eqn:E.
    + right. exists r. rewrite E. split; [left; reflexivity | discriminate].
    + left. intros r' [<- | Hr']; auto.
  - right. exists r'. split; [right; exact Hr' | exact Hn].
Qed.

(** Selecting a name that is not a column raises [KeyError] at the
    [groupby] column selection, whatever the catalog says. *)
Lemma update_world_map_no_column : forall t sel,
  ~ In sel (columns t) ->
  select_column t sel = Error (KeyError sel) /\
  update_world_map t sel = Error (KeyError sel).
Proof.
  intros t sel Hn.
  assert (Hs : select_column t sel = Error (KeyError sel)).
  { unfold select_column. destruct (existsb (String.eqb sel) (columns t)) eqn:E; [|reflexivity].
    exfalso. apply existsb_exists in E as [c' [Hin Heq]].
    apply String.eqb_eq in Heq. subst. exact (Hn Hin). }
  split; [exact Hs|]. unfold update_world_map, filtered_view, valid_years. rewrite Hs. reflexivity.
Qed.

(** ** Claims *)

(** C1: for a catalog feature (a column of the table, as the data model
    requires), the filtered view is the sub-list, in table order, of the rows
    whose year has at least one row with a value for the feature: rows of
    all-missing years are dropped, rows missing the value in a valid year
    stay; it is the table handed to the map, or empty in the no-data case. *)
Theorem filtered_view_valid_years : forall t sel,
  in_catalog sel = true -> In sel (columns t) ->
  exists fv,
    filtered_view t sel = Ok fv /\
    fv = filter (fun r => year_has_value (rows t) sel (year r)) (rows t) /\
    (forall r, In r fv <->
       In r (rows t) /\
       exists r', In r' (rows t) /\ year r' = year r /\ cell r' sel <> None) /\
    match update_world_map t sel with
    | Ok (Choropleth c) => fig_data c = fv
    | Ok (Scatter _) => fv = []
    | Error _ => False
    end.
Proof.
  intros t sel Hcat Hc.
  eexists. split; [apply filtered_view_eq; exact Hc|]. split; [reflexivity|]. split.
  - intros r. rewrite filter_In, year_has_value_iff. reflexivity.
  - rewrite update_world_map_column by exact Hc.
    destruct (dict_get_catalog sel Hcat) as [l Hl].
    destruct (filter _ (rows t)) eqn:E; [reflexivity|]. rewrite Hl. reflexivity.
Qed.

(** C2: for a catalog feature, [update_world_map] returns the no-data
    scatter (a title only) exactly when the feature has no value anywhere in
    the table, and a choropleth otherwise. *)
Theorem no_data_iff_all_missing : forall t sel,
  in_catalog sel = true -> In sel (columns t) ->
  (update_world_map t sel = Ok (Scatter no_data_title)
     <-> forall r, In r (rows t) -> cell r sel = None) /\
  ((exists r, In r (rows t) /\ cell r sel <> None)
     <-> exists c, update_world_map t sel = Ok (Choropleth c)).
Proof.
  intros t sel Hcat Hc. rewrite update_world_map_column by exact Hc.
  destruct (dict_get_catalog sel Hcat) as [l Hl].
  pose proof (filter_nil_iff_missing t sel) as Hnil.
  destruct (filter _ (rows t)) as [|r0 rs] eqn:E.
  - split; [split; [intros _; apply Hnil; reflexivity | reflexivity]|].
    split; [intros [r [Hr Hn]]; exfalso; exact (Hn (proj1 Hnil eq_refl r Hr))|].
    intros [c Hcx]; discriminate.
  - rewrite Hl. split.
    + split; [discriminate|]. intros H. apply Hnil in H. discriminate.
    + split; [intros _; eexists; reflexivity|]. intros _.
      destruct (missing_or_present (rows t) sel) as [Hall | Hx]; [|exact Hx].
      apply Hnil in Hall. discriminate.
Qed.

(** C3: for a catalog feature with at least one value, the choropleth's
    color range is [(0, q)] where [q] is the pandas 0.99 quantile of the
    non-missing values of the feature in the filtered view. *)
Theorem color_range_quantile : forall t sel,
  in_catalog sel = true -> In sel (columns t) ->
  (exists r, In r (rows t) /\ cell r sel <> None) ->
  exists fv c,
    filtered_view t sel = Ok fv /\
    update_world_map t sel = Ok (Choropleth c) /\
    fig_range_color c =
      Some (Num 0, quantile (dropna (map (fun r => cell r sel) fv)) (99 # 100)).
Proof.
  intros t sel Hcat Hc Hex.
  pose proof (update_world_map_column t sel Hc) as Hu. simpl in Hu.
  destruct (dict_get_catalog sel Hcat) as [l Hl]. rewrite Hl in Hu.
  destruct (filter (fun r => year_has_value (rows t) sel (year r)) (rows t)) as [|r0 rs] eqn:E.
  - exfalso. destruct Hex as [r [Hr Hn]].
    apply Hn. exact (proj1 (filter_nil_iff_missing t sel) E r Hr).
  - do 2 eexists. split; [rewrite filtered_view_eq by exact Hc; rewrite E; reflexivity|].
    split; [exact Hu | reflexivity].
Qed.

(** C4: when the filtered view is not empty, the series of its non-missing
    values of the feature is not empty, and its quantile is a number (never
    the NaN of an empty series). *)
Theorem quantile_series_nonempty : forall t sel fv,
  filtered_view t sel = Ok fv -> fv <> [] ->
  dropna (map (fun r => cell r sel) fv) <> [] /\
  exists v, quantile (dropna (map (fun r => cell r sel) fv)) (99 # 100) = Num v.
Proof.
  intros t sel fv Hfv Hne.
  assert (Hc : In sel (columns t)).
  { unfold filtered_view, valid_years, select_column in Hfv.
    destruct (existsb (String.eqb sel) (columns t)) eqn:E; [|discriminate].
    apply existsb_exists in E as [c' [Hin Heq]]. apply String.eqb_eq in Heq. subst. exact Hin. }
  rewrite filtered_view_eq in Hfv by exact Hc. injection Hfv as <-.
  assert (Hd : dropna (map (fun r => cell r sel)
                 (filter (fun r => year_has_value (rows t) sel (year r)) (rows t))) <> []).
  { rewrite dropna_filtered_view, dropna_nonempty. intros Hall.
    apply Hne, filter_nil_iff_missing. exact Hall. }
  split; [exact Hd | apply quantile_num; exact Hd].
Qed.

(** A feature column that is not in the catalog. *)
Definition stray_table : table :=
  mkTable ["c_newinc"; "e_pop_num"]
    [mkRow "Afghanistan" "AFG" 2010 [("c_newinc", Some 120); ("e_pop_num", None)]].

(** C5 (counterexample): [e_pop_num] is not in the catalog, yet selecting it
    is not rejected: it is all missing, and the no-data figure comes back. *)
Lemma stray_feature_not_rejected :
  in_catalog "e_pop_num" = false /\
  update_world_map stray_table "e_pop_num" = Ok (Scatter no_data_title).
Proof. split; reflexivity. Qed.

(** C5 (amended): no catalog check precedes the pipeline.  For a name
    outside the catalog other than the identifier columns country, iso3 and
    year: one that is not a column fails with [KeyError] at the column
    selection of step 1; one that is a column with some value goes through
    the filtering and the range and fails with [KeyError] at the label
    lookup; one that is a column with no value yields the no-data figure. *)
Theorem non_catalog_feature_outcomes : forall t sel,
  in_catalog sel = false -> ~ In sel id_columns ->
  (~ In sel (columns t) ->
     select_column t sel = Error (KeyError sel) /\
     update_world_map t sel = Error (KeyError sel)) /\
  (In sel (columns t) -> (exists r, In r (rows t) /\ cell r sel <> None) ->
     (exists fv, filtered_view t sel = Ok fv /\ fv <> []) /\
     update_world_map t sel = Error (KeyError sel)) /\
  (In sel (columns t) -> (forall r, In r (rows t) -> cell r sel = None) ->
     update_world_map t sel = Ok (Scatter no_data_title)).
Proof.
  intros t sel Hcat _. pose proof (dict_get_not_catalog sel Hcat) as Hd.
  split; [|split].
  - apply update_world_map_no_column.
  - intros Hc [r [Hr Hv]].
    rewrite update_world_map_column by exact Hc. rewrite Hd.
    rewrite filtered_view_eq by exact Hc.
    destruct (filter (fun r => year_has_value (rows t) sel (year r)) (rows t)) as [|r0 rs] eqn:E.
    + exfalso. exact (Hv (proj1 (filter_nil_iff_missing t sel) E r Hr)).
    + split; [eexists; split; [reflexivity | discriminate] | reflexivity].
  - intros Hc Hall. rewrite update_world_map_column by exact Hc.
    apply filter_nil_iff_missing in Hall. rewrite Hall. reflexivity.
Qed.

(** A loaded table that lacks the catalog's [c_newinc] column. *)
Definition short_table : table :=
  mkTable ["c_per_100k"]
    [mkRow "Afghanistan" "AFG" 2010 [("c_per_100k", Some 189)]].

(** C6 (counterexample): startup accepts a table without the catalog column
    [c_newinc]; the defect surfaces only when that feature is rendered. *)
Lemma missing_catalog_column_accepted :
  in_catalog "c_newinc" = true /\ ~ In "c_newinc" (columns short_table) /\
  match startup short_table with
  | Ok st => fst (update_world_map_cb "c_newinc" st) = Error (KeyError "c_newinc")
  | Error _ => False
  end.
Proof.
  split; [reflexivity|]. split; [simpl; intros [H | []]; discriminate|]. reflexivity.
Qed.

(** C6 (amended): startup never checks the catalog against the table; it
    always succeeds, and a catalog identifier missing from the table makes
    the callback raise [KeyError] at render time. *)
Theorem startup_does_not_validate : forall t,
  startup t = Ok (mkAppState t) /\
  forall k, ~ In k (columns t) ->
    fst (update_world_map_cb k (mkAppState t)) = Error (KeyError k).
Proof.
  intros t. split; [reflexivity|]. intros k Hk.
  exact (proj2 (update_world_map_no_column t k Hk)).
Qed.

(** C7: when the feature (a catalog column) has exactly one non-missing
    value [v] in the whole table, the display range is [(0, v)]. *)
Theorem single_value_range : forall t sel v,
  in_catalog sel = true -> In sel (columns t) ->
  dropna (map (fun r => cell r sel) (rows t)) = [v] ->
  exists c a b,
    update_world_map t sel = Ok (Choropleth c) /\
    fig_range_color c = Some (Num a, Num b) /\ a == 0 /\ b == v.
Proof.
  intros t sel v Hcat Hc Hv.
  assert (Hex : exists r, In r (rows t) /\ cell r sel <> None).
  { destruct (missing_or_present (rows t) sel) as [Hall | Hx]; [|exact Hx].
    apply dropna_nonempty in Hall. congruence. }
  pose proof (update_world_map_column t sel Hc) as Hu. simpl in Hu.
  destruct (dict_get_catalog sel Hcat) as [l Hl]. rewrite Hl in Hu.
  rewrite dropna_filtered_view, Hv in Hu.
  destruct (filter (fun r => year_has_value (rows t) sel (year r)) (rows t)) as [|r0 rs] eqn:E.
  - exfalso. destruct Hex as [r [Hr Hn]].
    apply Hn. exact (proj1 (filter_nil_iff_missing t sel) E r Hr).
  - do 3 eexists. split; [exact Hu|]. split; [reflexivity|].
    split; [reflexivity|]. simpl. ring.
Qed.

(** C8: for a catalog feature with data, the choropleth's title is
    ["Global TB Map for " ++ label] and its colorbar title is the label,
    the label being the catalog's entry; [c_newinc]'s is
    ["New Cases Reported"]. *)
Theorem title_from_catalog : forall t sel,
  in_catalog sel = true -> In sel (columns t) ->
  (exists r, In r (rows t) /\ cell r sel <> None) ->
  exists c label,
    dict_get feature_labels sel = Ok label /\
    update_world_map t sel = Ok (Choropleth c) /\
    fig_title c = "Global TB Map for " ++ label /\
    fig_colorbar_title c = label /\
    (sel = "c_newinc" -> label = "New Cases Reported").
Proof.
  intros t sel Hcat Hc Hex.
  pose proof (update_world_map_column t sel Hc) as Hu. simpl in Hu.
  destruct (dict_get_catalog sel Hcat) as [l Hl]. rewrite Hl in Hu.
  destruct (filter (fun r => year_has_value (rows t) sel (year r)) (rows t)) as [|r0 rs] eqn:E.
  - exfalso. destruct Hex as [r [Hr Hn]].
    apply Hn. exact (proj1 (filter_nil_iff_missing t sel) E r Hr).
  - do 2 eexists. split; [exact Hl|]. split; [exact Hu|].
    split; [reflexivity|]. split; [reflexivity|].
    intros ->. vm_compute in Hl. injection Hl as <-. reflexivity.
Qed.

(** C9: the callback leaves the process state, hence the loaded table,
    unchanged; its result depends only on that table and the selection. *)
Theorem callback_preserves_table : forall sel st,
  snd (update_world_map_cb sel st) = st /\
  fst (update_world_map_cb sel st) = update_world_map (df st) sel.
Proof. intros sel st. split; reflexivity. Qed.

(** C10: [plot_world_map] sets a color range exactly when both [vmin] and
    [vmax] are given; with either one [None] there is no range. *)
Theorem range_color_iff_both_bounds :
  forall df locations color hover_name animation_frame title colorbar_title
         color_scale projection_type slider_x slider_len colorbar_len
         colorbar_thickness colorbar_x width height vmin vmax,
  let fig := plot_world_map df locations color hover_name animation_frame title
               colorbar_title color_scale projection_type slider_x slider_len
               colorbar_len colorbar_thickness colorbar_x width height vmin vmax in
  (forall a b, fig_range_color fig = Some (a, b) <-> vmin = Some a /\ vmax = Some b) /\
  (fig_range_color fig = None <-> vmin = None \/ vmax = None).
Proof.
  intros. subst fig. simpl.
  destruct vmin as [a0|], vmax as [b0|]; split; intros; split;
    intuition congruence.
Qed.

(** ** Witnesses: the claims' hypotheses hold on concrete tables *)

Lemma filtered_view_valid_years_witness :
  in_catalog "c_newinc" = true /\ In "c_newinc" (columns gap_table) /\
  exists fv,
    filtered_view gap_table "c_newinc" = Ok fv /\
    fv = filter (fun r => year_has_value (rows gap_table) "c_newinc" (year r)) (rows gap_table) /\
    (forall r, In r fv <->
       In r (rows gap_table) /\
       exists r', In r' (rows gap_table) /\ year r' = year r /\ cell r' "c_newinc" <> None) /\
    match update_world_map gap_table "c_newinc" with
    | Ok (Choropleth c) => fig_data c = fv
    | Ok (Scatter _) => fv = []
    | Error _ => False
    end.
Proof.
  split; [reflexivity|]. split; [simpl; auto|].
  apply filtered_view_valid_years; [reflexivity | simpl; auto].
Defined.

Lemma no_data_iff_all_missing_witness :
  in_catalog "c_newinc" = true /\ In "c_newinc" (columns scenario_table) /\
  (update_world_map scenario_table "c_newinc" = Ok (Scatter no_data_title)
     <-> forall r, In r (rows scenario_table) -> cell r "c_newinc" = None) /\
  ((exists r, In r (rows scenario_table) /\ cell r "c_newinc" <> None)
     <-> exists c, update_world_map scenario_table "c_newinc" = Ok (Choropleth c)).
Proof.
  split; [reflexivity|]. split; [simpl; auto|].
  apply no_data_iff_all_missing; [reflexivity | simpl; auto].
Defined.

Lemma color_range_quantile_witness :
  in_catalog "c_newinc" = true /\ In "c_newinc" (columns gap_table) /\
  (exists r, In r (rows gap_table) /\ cell r "c_newinc" <> None) /\
  exists fv c,
    filtered_view gap_table "c_newinc" = Ok fv /\
    update_world_map gap_table "c_newinc" = Ok (Choropleth c) /\
    fig_range_color c =
      Some (Num 0, quantile (dropna (map (fun r => cell r "c_newinc") fv)) (99 # 100)).
Proof.
  assert (Hex : exists r, In r (rows gap_table) /\ cell r "c_newinc" <> None)
    by (eexists; split; [left; reflexivity | simpl; discriminate]).
  split; [reflexivity|]. split; [simpl; auto|]. split; [exact Hex|].
  apply color_range_quantile; [reflexivity | simpl; auto | exact Hex].
Defined.

Lemma quantile_series_nonempty_witness :
  filtered_view scenario_table "c_newinc" = Ok [afg 2010 (Some 120)] /\
  [afg 2010 (Some 120)] <> [] /\
  dropna (map (fun r => cell r "c_newinc") [afg 2010 (Some 120)]) <> [] /\
  exists v, quantile (dropna (map (fun r => cell r "c_newinc") [afg 2010 (Some 120)])) (99 # 100)
            = Num v.
Proof.
  split; [reflexivity|]. split; [discriminate|].
  apply (quantile_series_nonempty scenario_table); [reflexivity | discriminate].
Defined.

Lemma non_catalog_feature_outcomes_witness :
  in_catalog "e_pop_num" = false /\ ~ In "e_pop_num" id_columns /\
  (~ In "e_pop_num" (columns stray_table) ->
     select_column stray_table "e_pop_num" = Error (KeyError "e_pop_num") /\
     update_world_map stray_table "e_pop_num" = Error (KeyError "e_pop_num")) /\
  (In "e_pop_num" (columns stray_table) ->
     (exists r, In r (rows stray_table) /\ cell r "e_pop_num" <> None) ->
     (exists fv, filtered_view stray_table "e_pop_num" = Ok fv /\ fv <> []) /\
     update_world_map stray_table "e_pop_num" = Error (KeyError "e_pop_num")) /\
  (In "e_pop_num" (columns stray_table) ->
     (forall r, In r (rows stray_table) -> cell r "e_pop_num" = None) ->
     update_world_map stray_table "e_pop_num" = Ok (Scatter no_data_title)).
Proof.
  assert (Hid : ~ In "e_pop_num" id_columns) by (simpl; intuition discriminate).
  split; [reflexivity|]. split; [exact Hid|].
  apply non_catalog_feature_outcomes; [reflexivity | exact Hid].
Defined.

Lemma startup_does_not_validate_witness :
  ~ In "c_newinc" (columns short_table) /\
  startup short_table = Ok (mkAppState short_table) /\
  fst (update_world_map_cb "c_newinc" (mkAppState short_table)) = Error (KeyError "c_newinc").
Proof.
  assert (Hn : ~ In "c_newinc" (columns short_table)) by (simpl; intros [H | []]; discriminate).
  split; [exact Hn|].
  destruct (startup_does_not_validate short_table) as [Hs Hk].
  split; [exact Hs | exact (Hk "c_newinc" Hn)].
Defined.

Lemma single_value_range_witness :
  in_catalog "c_newinc" = true /\ In "c_newinc" (columns scenario_table) /\
  dropna (map (fun r => cell r "c_newinc") (rows scenario_table)) = [120] /\
  exists c a b,
    update_world_map scenario_table "c_newinc" = Ok (Choropleth c) /\
    fig_range_color c = Some (Num a, Num b) /\ a == 0 /\ b == 120.
Proof.
  split; [reflexivity|]. split; [simpl; auto|]. split; [reflexivity|].
  apply single_value_range; [reflexivity | simpl; auto | reflexivity].
Defined.

Lemma title_from_catalog_witness :
  in_catalog "c_newinc" = true /\ In "c_newinc" (columns scenario_table) /\
  (exists r, In r (rows scenario_table) /\ cell r "c_newinc" <> None) /\
  exists c label,
    dict_get feature_labels "c_newinc" = Ok label /\
    update_world_map scenario_table "c_newinc" = Ok (Choropleth c) /\
    fig_title c = "Global TB Map for " ++ label /\
    fig_colorbar_title c = label /\
    ("c_newinc" = "c_newinc" -> label = "New Cases Reported").
Proof.
  assert (Hex : exists r, In r (rows scenario_table) /\ cell r "c_newinc" <> None)
    by (eexists; split; [left; reflexivity | simpl; discriminate]).
  split; [reflexivity|]. split; [simpl; auto|]. split; [exact Hex|].
  apply title_from_catalog; [reflexivity | simpl; auto | exact Hex].
Defined.

(** ** Further properties of the code *)

Lemma filtered_view_ok_column : forall t sel fv,
  filtered_view t sel = Ok fv -> In sel (columns t).
Proof.
  intros t sel fv Hfv. unfold filtered_view, valid_years, select_column in Hfv.
  destruct (existsb (String.eqb sel) (columns t)) eqn:E; [|discriminate].
  apply existsb_exists in E as [c' [Hin Heq]]. apply String.eqb_eq in Heq. subst. exact Hin.
Qed.

Lemma filter_all_true : forall {A} (f : A -> bool) l,
  (forall x, In x l -> f x = true) -> filter f l = l.
Proof.
  intros A f l; induction l as [|x l IH]; intros H; simpl; [reflexivity|].
  rewrite (H x (or_introl eq_refl)), IH; [reflexivity|]. intros; apply H; simpl; auto.
Qed.

(** Every row of the filtered view has, in the view itself, a row of the same
    year with a value for the feature. *)
Lemma filtered_view_year_witnessed : forall t sel fv r,
  filtered_view t sel = Ok fv -> In r fv ->
  exists r', In r' fv /\ year r' = year r /\ cell r' sel <> None.
Proof.
  intros t sel fv r Hfv Hr.
  rewrite (filtered_view_eq t sel (filtered_view_ok_column t sel fv Hfv)) in Hfv.
  injection Hfv as <-.
  apply filter_In in Hr as [_ Hy]. apply year_has_value_iff in Hy as [r' [Hr' [Hy Hn]]].
  exists r'. split; [|auto]. apply filter_In. split; [exact Hr'|].
  apply year_has_value_iff. exists r'. auto.
Qed.

(** X1: each dropdown option resolves to its own label in the catalog, the
    dropdown's initial value is one of the options, and selecting an option
    that is a column of the table never raises: the result is the no-data
    figure or a map whose colorbar shows the option's label. *)
Theorem dropdown_options_render : forall t label value,
  In (label, value) (dd_options feature_dropdown) -> In value (columns t) ->
  dict_get feature_labels value = Ok label /\
  (exists l0, In (l0, dd_value feature_dropdown) (dd_options feature_dropdown)) /\
  (update_world_map t value = Ok (Scatter no_data_title) \/
   exists c, update_world_map t value = Ok (Choropleth c) /\ fig_colorbar_title c = label).
Proof.
  intros t label value Hopt Hc.
  assert (Hl : dict_get feature_labels value = Ok label).
  { unfold feature_dropdown, dd_options in Hopt. apply in_map_iff in Hopt as [[k l] [Heq Hin]].
    simpl in Heq. injection Heq as <- <-.
    simpl in Hin. repeat (destruct Hin as [Hin | Hin]; [injection Hin as <- <-; reflexivity|]).
    destruct Hin. }
  split; [exact Hl|]. split; [eexists; left; reflexivity|].
  rewrite update_world_map_column by exact Hc. rewrite Hl.
  destruct (filter _ (rows t)); [left; reflexivity | right; eexists; split; reflexivity].
Qed.

(** X2: the animation frames of the map, the years of the filtered view, are
    exactly the years in which some row has a value for the feature. *)
Theorem frames_are_years_with_data : forall t sel fv,
  filtered_view t sel = Ok fv ->
  forall y, In y (map year fv) <->
            exists r, In r (rows t) /\ year r = y /\ cell r sel <> None.
Proof.
  intros t sel fv Hfv y.
  pose proof (filtered_view_ok_column t sel fv Hfv) as Hc.
  pose proof (fun r => filtered_view_year_witnessed t sel fv r Hfv) as Hw.
  rewrite (filtered_view_eq t sel Hc) in Hfv. injection Hfv as <-. rewrite in_map_iff. split.
  - intros [r [<- Hr]]. destruct (Hw r Hr) as [r' [Hr' [Hy Hn]]].
    apply filter_In in Hr' as [Hr' _]. exists r'. auto.
  - intros [r [Hr [<- Hn]]]. exists r. split; [reflexivity|].
    apply filter_In. split; [exact Hr|]. apply year_has_value_iff. exists r. auto.
Qed.

(** X3: no animation frame is empty of data: every year of the filtered view
    has a row in the view with a value for the feature. *)
Theorem every_frame_has_data : forall t sel fv r,
  filtered_view t sel = Ok fv -> In r fv ->
  exists r', In r' fv /\ year r' = year r /\ cell r' sel <> None.
Proof. intros t sel fv r Hfv Hr. exact (filtered_view_year_witnessed t sel fv r Hfv Hr). Qed.

(** X4: filtering is idempotent: running the year filter again on the
    filtered view (same columns) returns the same rows. *)
Theorem filtered_view_idempotent : forall t sel fv,
  filtered_view t sel = Ok fv ->
  filtered_view (mkTable (columns t) fv) sel = Ok fv.
Proof.
  intros t sel fv Hfv.
  pose proof (filtered_view_ok_column t sel fv Hfv) as Hc.
  rewrite (filtered_view_eq (mkTable (columns t) fv) sel Hc). simpl. f_equal.
  apply filter_all_true. intros r Hr. apply year_has_value_iff.
  exact (filtered_view_year_witnessed t sel fv r Hfv Hr).
Qed.

(** X5: the year filter does not change the color range: its upper bound is
    the 0.99 quantile of all the feature's non-missing values in the whole
    table. *)
Theorem range_from_whole_table : forall t sel,
  in_catalog sel = true -> In sel (columns t) ->
  (exists r, In r (rows t) /\ cell r sel <> None) ->
  exists c,
    update_world_map t sel = Ok (Choropleth c) /\
    fig_range_color c =
      Some (Num 0, quantile (dropna (map (fun r => cell r sel) (rows t))) (99 # 100)).
Proof.
  intros t sel Hcat Hc Hex.
  pose proof (update_world_map_column t sel Hc) as Hu. simpl in Hu.
  destruct (dict_get_catalog sel Hcat) as [l Hl]. rewrite Hl, dropna_filtered_view in Hu.
  destruct (filter (fun r => year_has_value (rows t) sel (year r)) (rows t)) as [|r0 rs] eqn:E.
  - exfalso. destruct Hex as [r [Hr Hn]].
    apply Hn. exact (proj1 (filter_nil_iff_missing t sel) E r Hr).
  - eexists. split; [exact Hu | reflexivity].
Qed.


(** ** Witnesses for the further properties *)

Lemma dropdown_options_render_witness :
  In ("New Cases Reported", "c_newinc") (dd_options feature_dropdown) /\
  In "c_newinc" (columns gap_table) /\
  dict_get feature_labels "c_newinc" = Ok "New Cases Reported" /\
  (exists l0, In (l0, dd_value feature_dropdown) (dd_options feature_dropdown)) /\
  (update_world_map gap_table "c_newinc" = Ok (Scatter no_data_title) \/
   exists c, update_world_map gap_table "c_newinc" = Ok (Choropleth c) /\
             fig_colorbar_title c = "New Cases Reported").
Proof.
  assert (Hopt : In ("New Cases Reported", "c_newinc") (dd_options feature_dropdown))
    by (left; reflexivity).
  split; [exact Hopt|]. split; [left; reflexivity|].
  apply dropdown_options_render; [exact Hopt | left; reflexivity].
Defined.

Lemma frames_are_years_with_data_witness :
  exists fv, filtered_view gap_table "c_newinc" = Ok fv /\
  forall y, In y (map year fv) <->
            exists r, In r (rows gap_table) /\ year r = y /\ cell r "c_newinc" <> None.
Proof.
  eexists. split; [reflexivity|].
  apply (frames_are_years_with_data gap_table "c_newinc"). reflexivity.
Defined.

Lemma every_frame_has_data_witness :
  exists fv r, filtered_view gap_table "c_newinc" = Ok fv /\ In r fv /\
  exists r', In r' fv /\ year r' = year r /\ cell r' "c_newinc" <> None.
Proof.
  do 2 eexists. split; [reflexivity|]. split; [right; left; reflexivity|].
  apply (every_frame_has_data gap_table "c_newinc"); [reflexivity | right; left; reflexivity].
Defined.

Lemma filtered_view_idempotent_witness :
  exists fv, filtered_view gap_table "c_newinc" = Ok fv /\
  filtered_view (mkTable (columns gap_table) fv) "c_newinc" = Ok fv.
Proof.
  eexists. split; [reflexivity|].
  apply (filtered_view_idempotent gap_table "c_newinc"). reflexivity.
Defined.

Lemma range_from_whole_table_witness :
  in_catalog "c_newinc" = true /\ In "c_newinc" (columns gap_table) /\
  (exists r, In r (rows gap_table) /\ cell r "c_newinc" <> None) /\
  exists c,
    update_world_map gap_table "c_newinc" = Ok (Choropleth c) /\
    fig_range_color c =
      Some (Num 0, quantile (dropna (map (fun r => cell r "c_newinc") (rows gap_table))) (99 # 100)).
Proof.
  assert (Hex : exists r, In r (rows gap_table) /\ cell r "c_newinc" <> None)
    by (eexists; split; [left; reflexivity | simpl; discriminate]).
  split; [reflexivity|]. split; [simpl; auto|]. split; [exact Hex|].
  apply range_from_whole_table; [reflexivity | simpl; auto | exact Hex].
Defined.

